(** * Onboarding views of the desktop client: tutorial panel and usage opt-out

    A shallow embedding of
      - [app/src/ui/tutorial-panel/tutorial-panel.tsx]
        (classes [TutorialPanel] and [TutorialStepInstructions]), and
      - [app/src/ui/welcome/usage-opt-out.tsx] (class [UsageOptOut]),
    followed by the properties of the step ordering, of the accordion's
    expanded-step state machine and of the opt-out form.

    Component instances are records of props and state; [setState] is a
    record update; handlers that return [void] and act on something outside
    the component are functions on that outside store.  What React itself
    does around the components (installing new props after
    [componentWillReceiveProps], bubbling a click from [<details>] to
    [<li>]) is written out next to the component it drives. *)

From Stdlib Require Import String ZArith List Bool Lia.
Import ListNotations.
Local Open Scope Z_scope.

(* ===================================================================== *)
(** * Part I: the embedding                                               *)
(* ===================================================================== *)

(** ** [Array.prototype.indexOf] *)

Module Js.
Section ArrayIndexOf.
Context {A : Type}.
(** [===] on the element type. *)
Variable strictEq : A -> A -> bool.

(** The scan of [indexOf]: the first index [k] whose element is strictly
    equal to [searchElement], and [-1] when there is none. *)
Fixpoint indexOfFrom (arr : list A) (searchElement : A) (k : Z) : Z :=
  match arr with
  | [] => -1
  | elementK :: rest =>
      if strictEq elementK searchElement then k
      else indexOfFrom rest searchElement (k + 1)
  end.

Definition indexOf (arr : list A) (searchElement : A) : Z :=
  indexOfFrom arr searchElement 0.
End ArrayIndexOf.
End Js.

(** ** [models/tutorial-step] *)

Module TutorialStepModel.

(** Modelled from the spec: the [TutorialStep] enum of
    [app/src/models/tutorial-step], which the panel imports and which is
    not among the sources.  The spec's data model gives it as a fixed
    sequence of six named stages. *)
Inductive TutorialStep : Set :=
| PickEditor
| CreateBranch
| EditFile
| MakeCommit
| PushBranch
| OpenPullRequest.

(** Modelled from the spec: [ValidTutorialStep], the type of the steps the
    panel is given; the six stages. *)
Definition ValidTutorialStep : Set := TutorialStep.

(** [===] and [!==] on enum members. *)
Definition strictEq (a b : ValidTutorialStep) : bool :=
  match a, b with
  | PickEditor, PickEditor
  | CreateBranch, CreateBranch
  | EditFile, EditFile
  | MakeCommit, MakeCommit
  | PushBranch, PushBranch
  | OpenPullRequest, OpenPullRequest => true
  | _, _ => false
  end.

Definition strictNe (a b : ValidTutorialStep) : bool := negb (strictEq a b).

(** Equality of steps is decidable; used to state case distinctions. *)
Definition eq_dec (a b : ValidTutorialStep) : {a = b} + {a <> b}.
Proof. decide equality. Defined.

(** Modelled from the spec: [orderedTutorialSteps], the canonical
    progression sequence (PickEditor, CreateBranch, EditFile, MakeCommit,
    PushBranch, OpenPullRequest), fixed at compile time. *)
Definition orderedTutorialSteps : list ValidTutorialStep :=
  [PickEditor; CreateBranch; EditFile; MakeCommit; PushBranch; OpenPullRequest].

(** The spec's [index(step)]: the step's position in the canonical
    sequence, written from the spec's enumeration of the stages and not
    from the array scan the code performs. *)
Definition index (step : ValidTutorialStep) : nat :=
  match step with
  | PickEditor => 0
  | CreateBranch => 1
  | EditFile => 2
  | MakeCommit => 3
  | PushBranch => 4
  | OpenPullRequest => 5
  end%nat.

End TutorialStepModel.

(** ** The dispatcher, as the tutorial panel uses it *)

Module Dispatcher.

(** [models/repository]: the panel only hands the repository on. *)
Record Repository : Set := { path : string }.

(** A method call on the dispatcher.  A handler of type [() => void]
    is the list of calls it issues when invoked. *)
Inductive Call : Set :=
| skipPickEditorTutorialStep (repository : Repository)
| skipCreatePullRequestTutorialStep (repository : Repository).

Definition Handler : Set := list Call.

End Dispatcher.

(** ** [class TutorialStepInstructions] *)

Module TutorialStepInstructions.
Import TutorialStepModel.

(** [<SkipLinkButton onClick=... />] *)
Record SkipLinkButton : Set := { onClick : Dispatcher.Handler }.

(** What [render] produces, kept to the parts that are decided by props. *)
Inductive StepIcon : Set :=
| GreenCircleCheck                 (* div.green-circle with the check octicon *)
| BlueCircle (stepNumber : Z)      (* div.blue-circle  *)
| EmptyCircle (stepNumber : Z).    (* div.empty-circle *)

Inductive SummaryTail : Set :=
| SkipLink (button : SkipLinkButton)
| ChevronDown.

Record Summary : Set :=
  { icon : StepIcon; summarySpan : string; tail : SummaryTail }.

Record Details : Set := { open : bool; summary : Summary }.

Record Li : Set := { key : ValidTutorialStep; details : Details }.

(** [React.MouseEvent], as far as the handler touches it. *)
Record MouseEvent : Set := { defaultPrevented : bool }.

Definition preventDefault (e : MouseEvent) : MouseEvent :=
  {| defaultPrevented := true |}.

(** [x !== undefined] on an optional prop. *)
Definition isDefined {T : Type} (x : option T) : bool :=
  match x with Some _ => true | None => false end.

Section WithParent.
(** The owner of the [onSummaryClick] callback: the callback returns
    [void] and changes its owner. *)
Variable Parent : Type.

Record ITutorialListItemProps : Type := {
  summaryText : string;
  isComplete : ValidTutorialStep -> bool;
  sectionId : ValidTutorialStep;
  isNextStepTodo : ValidTutorialStep -> bool;
  currentlyOpenSectionId : ValidTutorialStep;
  skipLinkButton : option SkipLinkButton;
  summaryClick : ValidTutorialStep -> Parent -> Parent
    (* the prop [onSummaryClick]; the method of that name is below *)
}.

Variable this : ITutorialListItemProps.

Definition renderTutorialStepIcon : StepIcon :=
  if isComplete this (sectionId this) then GreenCircleCheck
  else
    let stepNumber := Js.indexOf strictEq orderedTutorialSteps (sectionId this) + 1 in
    if isNextStepTodo this (sectionId this)
    then BlueCircle stepNumber
    else EmptyCircle stepNumber.

(** The local constant of [renderSummary]; [&&] evaluates left to right
    and the operands have no effects. *)
Definition shouldShowSkipLink : bool :=
  isDefined (skipLinkButton this)
  && strictEq (currentlyOpenSectionId this) (sectionId this)
  && isNextStepTodo this (sectionId this).

Definition renderSummary : Summary :=
  {| icon := renderTutorialStepIcon;
     summarySpan := summaryText this;
     tail :=
       if shouldShowSkipLink then
         match skipLinkButton this with
         | Some button => SkipLink button
         | None => ChevronDown   (* shouldShowSkipLink is false here *)
         end
       else ChevronDown |}.

Definition render : Li :=
  {| key := sectionId this;
     details :=
       {| open := strictEq (sectionId this) (currentlyOpenSectionId this);
          summary := renderSummary |} |}.

Definition onSummaryClick (e : MouseEvent) (parent : Parent)
  : MouseEvent * Parent :=
  (preventDefault e, summaryClick this (sectionId this) parent).

(** A click inside the [<details>] element: React runs the [onClick] of
    [<details>] and then, bubbling, the [onClick] of the enclosing
    [<li>]; both are [onSummaryClick]. *)
Definition click (e : MouseEvent) (parent : Parent) : MouseEvent * Parent :=
  let '(e1, parent1) := onSummaryClick e parent in
  onSummaryClick e1 parent1.
End WithParent.

Arguments summaryText {Parent}.
Arguments isComplete {Parent}.
Arguments sectionId {Parent}.
Arguments isNextStepTodo {Parent}.
Arguments currentlyOpenSectionId {Parent}.
Arguments skipLinkButton {Parent}.
Arguments summaryClick {Parent}.
Arguments renderTutorialStepIcon {Parent}.
Arguments shouldShowSkipLink {Parent}.
Arguments renderSummary {Parent}.
Arguments render {Parent}.
Arguments onSummaryClick {Parent}.
Arguments click {Parent}.

End TutorialStepInstructions.

(** ** [class TutorialPanel] *)

Module TutorialPanel.
Import TutorialStepModel.
Module Item := TutorialStepInstructions.

Record ITutorialPanelProps : Set := {
  repository : Dispatcher.Repository;
  externalEditorLabel : option string;
  currentTutorialStep : ValidTutorialStep
}.

Record ITutorialPanelState : Set := {
  currentlyOpenSectionId : ValidTutorialStep
}.

(** A mounted instance: [this.props] and [this.state]. *)
Record Component : Set := {
  props : ITutorialPanelProps;
  state : ITutorialPanelState
}.

Definition setState (this : Component) (next : ITutorialPanelState) : Component :=
  {| props := props this; state := next |}.

Definition constructor (p : ITutorialPanelProps) : Component :=
  {| props := p;
     state := {| currentlyOpenSectionId := currentTutorialStep p |} |}.

Definition skipEditorInstall (this : Component) : Dispatcher.Handler :=
  [Dispatcher.skipPickEditorTutorialStep (repository (props this))].

Definition skipCreatePR (this : Component) : Dispatcher.Handler :=
  [Dispatcher.skipCreatePullRequestTutorialStep (repository (props this))].

Definition isStepComplete (this : Component) (step : ValidTutorialStep) : bool :=
  Js.indexOf strictEq orderedTutorialSteps step
  <? Js.indexOf strictEq orderedTutorialSteps (currentTutorialStep (props this)).

Definition isStepNextTodo (this : Component) (step : ValidTutorialStep) : bool :=
  strictEq step (currentTutorialStep (props this)).

Definition componentWillReceiveProps
    (this : Component) (nextProps : ITutorialPanelProps) : Component :=
  if strictNe (currentTutorialStep (props this)) (currentTutorialStep nextProps)
  then setState this {| currentlyOpenSectionId := currentTutorialStep nextProps |}
  else this.

Definition onStepSummaryClick (id : ValidTutorialStep) (this : Component) : Component :=
  setState this {| currentlyOpenSectionId := id |}.

(** One [<TutorialStepInstructions>] of [render]. *)
Definition stepInstructions (this : Component) (text : string)
    (id : ValidTutorialStep) (skip : option Item.SkipLinkButton)
  : Item.ITutorialListItemProps Component :=
  {| Item.summaryText := text;
     Item.isComplete := isStepComplete this;
     Item.isNextStepTodo := isStepNextTodo this;
     Item.sectionId := id;
     Item.currentlyOpenSectionId := currentlyOpenSectionId (state this);
     Item.skipLinkButton := skip;
     Item.summaryClick := onStepSummaryClick |}.

(** [render]: the children of the [<ol>], in document order.  The static
    text inside each step is left out. *)
Definition render (this : Component) : list (Item.ITutorialListItemProps Component) :=
  [ stepInstructions this "Install a text editor" PickEditor
      (Some {| Item.onClick := skipEditorInstall this |});
    stepInstructions this "Make a branch" CreateBranch None;
    stepInstructions this "Edit a file" EditFile None;
    stepInstructions this "Make a commit" MakeCommit None;
    stepInstructions this "Push to GitHub" PushBranch None;
    stepInstructions this "Open a pull request" OpenPullRequest
      (Some {| Item.onClick := skipCreatePR this |}) ].

(** *** React around the panel *)

(** A props update: [componentWillReceiveProps] runs while [this.props]
    is still the old value, then the new props are installed. *)
Definition receiveProps (this : Component) (nextProps : ITutorialPanelProps) : Component :=
  {| props := nextProps;
     state := state (componentWillReceiveProps this nextProps) |}.

(** The user clicks the summary of the rendered section [id]. *)
Definition clickSummary (this : Component) (id : ValidTutorialStep) : Component :=
  match find (fun item => strictEq (Item.sectionId item) id) (render this) with
  | Some item => snd (Item.click item {| Item.defaultPrevented := false |} this)
  | None => this
  end.

Inductive Event : Set :=
| SummaryClick (id : ValidTutorialStep)
| PropsUpdate (nextProps : ITutorialPanelProps).

Definition step (this : Component) (ev : Event) : Component :=
  match ev with
  | SummaryClick id => clickSummary this id
  | PropsUpdate nextProps => receiveProps this nextProps
  end.

Definition run (this : Component) (evs : list Event) : Component :=
  fold_left step evs this.

(** The rendered [<li>] elements. *)
Definition renderedSections (this : Component) : list Item.Li :=
  map Item.render (render this).

(** Whether the rendered summary of section [id] carries the skip link. *)
Definition skipLinkShown (this : Component) (id : ValidTutorialStep) : bool :=
  existsb
    (fun li =>
       strictEq (Item.key li) id
       && match Item.tail (Item.summary (Item.details li)) with
          | Item.SkipLink _ => true
          | Item.ChevronDown => false
          end)
    (renderedSections this).

(** The status icon rendered for section [id]. *)
Definition statusIcon (this : Component) (id : ValidTutorialStep) : option Item.StepIcon :=
  option_map (fun li => Item.icon (Item.summary (Item.details li)))
    (find (fun li => strictEq (Item.key li) id) (renderedSections this)).

End TutorialPanel.

(** ** [class UsageOptOut] *)

Module UsageOptOut.

(** Modelled from the spec: the [CheckboxValue] enum of [ui/lib/checkbox],
    which is not among the sources; the two members the form passes, a
    checked box ([On]) and an unchecked one ([Off]). *)
Inductive CheckboxValue : Set := On | Off.

(** Modelled from the spec: whether a checkbox rendered with this value
    shows as checked. *)
Definition isChecked (v : CheckboxValue) : bool :=
  match v with On => true | Off => false end.

(** [React.FormEvent<HTMLInputElement>], as far as [onChange] reads it. *)
Record HTMLInputElement : Set := { checked : bool }.
Record FormEvent : Set := { currentTarget : HTMLInputElement }.

Section WithWelcomeStep.
(** [WelcomeStep] of [./welcome] is not among the sources: the enum and
    its member [ConfigureGit] are taken as given. *)
Context {WelcomeStep : Type}.
Variable ConfigureGit : WelcomeStep.

Section WithWorld.
(** Whatever the external collaborators act on. *)
Context {World : Type}.

Record Dispatcher : Type := { setStatsOptOut : bool -> World -> World }.

Record IUsageOptOutProps : Type := {
  dispatcher : Dispatcher;
  advance : WelcomeStep -> World -> World;
  done : World -> World;
  optOut : bool
}.

(** [React.Component<IUsageOptOutProps, void>]: no state of its own. *)
Record Component : Type := { props : IUsageOptOutProps; state : unit }.

(** A handler may change the component and the world. *)
Definition Handler : Type := Component -> World -> Component * World.

Definition onChange (event : FormEvent) : Handler := fun this world =>
  let value := checked (currentTarget event) in
  (this, setStatsOptOut (dispatcher (props this)) (negb value) world).

Definition cancel : Handler := fun this world =>
  (this, advance (props this) ConfigureGit world).

Definition finish : Handler := fun this world =>
  (this, done (props this) world).

(** What [render] produces: the form with its checkbox and buttons. *)
Record Checkbox : Type := {
  label : string;
  value : CheckboxValue;
  checkboxOnChange : FormEvent -> Handler
}.

Record Form : Type := {
  onSubmit : Handler;
  checkbox : Checkbox;
  cancelOnClick : Handler   (* the second button; the first submits *)
}.

Definition render (this : Component) : Form :=
  {| onSubmit := finish;
     checkbox :=
       {| label := "Yes, submit anonymized usage data";
          value := if optOut (props this) then Off else On;
          checkboxOnChange := onChange |};
     cancelOnClick := cancel |}.

(** *** The user in front of the rendered form *)

Inductive UserAction : Set := Toggle | Submit | Cancel.

(** Toggling flips the box as rendered and reports the new value in
    the event; submitting and cancelling run the handlers [render]
    attached. *)
Definition act (a : UserAction) : Handler := fun this world =>
  let form := render this in
  match a with
  | Toggle =>
      let event :=
        {| currentTarget :=
             {| checked := negb (isChecked (value (checkbox form))) |} |} in
      checkboxOnChange (checkbox form) event this world
  | Submit => onSubmit form this world
  | Cancel => cancelOnClick form this world
  end.
End WithWorld.

(** *** Recording collaborators *)

(** One entry per call received by the dispatcher or by a callback. *)
Inductive Call : Type :=
| SetStatsOptOut (optOut : bool)
| Advance (step : WelcomeStep)
| Done.

Definition Log : Type := list Call.

Definition record (c : Call) (log : Log) : Log := log ++ [c].

Definition recordingProps (flag : bool) : @IUsageOptOutProps Log :=
  {| dispatcher := {| setStatsOptOut := fun b => record (SetStatsOptOut b) |};
     advance := fun s => record (Advance s);
     done := record Done;
     optOut := flag |}.

Definition recording (flag : bool) : @Component Log :=
  {| props := recordingProps flag; state := tt |}.
End WithWelcomeStep.

End UsageOptOut.

(** ** [TutorialPanel]: the remaining handlers and the step contents *)

Module TutorialPanelContents.
Import TutorialStepModel TutorialPanel.

(** The dispatcher methods the panel reaches: the two skip methods of
    [Dispatcher.Call] and the two methods behind the buttons. *)
Inductive Call : Set :=
| skipCall (c : Dispatcher.Call)
| openInExternalEditor (fullPath : string)
| createPullRequest (repository : Dispatcher.Repository).

(** Truthiness of an optional string, as [&&] and [!] see it: [undefined]
    and the empty string are falsy. *)
Definition truthy (s : option string) : bool :=
  match s with
  | Some (String _ _) => true
  | Some EmptyString => false
  | None => false
  end.

(** The clickable control of a step's [div.action]. *)
Inductive Control : Set :=
| LinkButton (onClick : list Call) (text : string)
| Button (onClick : list Call) (disabled : bool) (text : string).

Section WithEnvironment.
(** [join] of node's [path] module, and the build constant [__DARWIN__]. *)
Variable join : string -> string -> string.
Variable DARWIN : bool.

Definition openTutorialFileInEditor (this : Component) : list Call :=
  [openInExternalEditor (join (Dispatcher.path (repository (props this))) "README.md")].

Definition openPullRequest (this : Component) : list Call :=
  [createPullRequest (repository (props this))].

(** The control among the children of the section [id] in [render], when
    one is rendered; descriptions and keyboard hints are static. *)
Definition actionControl (this : Component) (id : ValidTutorialStep) : option Control :=
  match id with
  | PickEditor =>
      if negb (isStepComplete this PickEditor)
      then Some (LinkButton (map skipCall (skipEditorInstall this)) "I have an editor")
      else None
  | CreateBranch => None
  | EditFile =>
      if truthy (externalEditorLabel (props this))
      then Some (Button (openTutorialFileInEditor this)
                   (negb (truthy (externalEditorLabel (props this))))
                   (if DARWIN then "Open Editor" else "Open editor"))
      else None
  | MakeCommit => None
  | PushBranch => None
  | OpenPullRequest =>
      Some (Button (openPullRequest this) false
              (if DARWIN then "Open Pull Request" else "Open pull request"))
  end.
End WithEnvironment.

(** The trailing element of the rendered summary of section [id]. *)
Definition summaryTail (this : Component) (id : ValidTutorialStep)
  : option Item.SummaryTail :=
  option_map (fun li => Item.tail (Item.summary (Item.details li)))
    (find (fun li => strictEq (Item.key li) id) (renderedSections this)).

Definition isPropsUpdate (ev : Event) : bool :=
  match ev with
  | PropsUpdate _ => true
  | SummaryClick _ => false
  end.

End TutorialPanelContents.

(** ** [UsageOptOut]: a session in front of the form *)

Module UsageOptOutSession.
Import UsageOptOut.

Section WithWelcomeStep.
Context {WelcomeStep : Type}.
Variable ConfigureGit : WelcomeStep.



(** Collaborators over a store that holds the opt-out flag: the dispatcher
    writes it, the callbacks leave it alone. *)
Definition storingProps (flag : bool) : @IUsageOptOutProps WelcomeStep bool :=
  {| dispatcher := {| setStatsOptOut := fun b _ => b |};
     advance := fun _ stored => stored;
     done := fun stored => stored;
     optOut := flag |}.

(** The form rendered from the stored flag. *)
Definition storing (stored : bool) : @Component WelcomeStep bool :=
  {| props := storingProps stored; state := tt |}.

(** One action on the form rendered from the store; the result is the
    store the next render reads. *)
Definition actOnStore (a : UserAction) (stored : bool) : bool :=
  snd (act ConfigureGit a (storing stored) stored).
End WithWelcomeStep.

End UsageOptOutSession.

(* ===================================================================== *)
(** * Part II: properties                                                 *)
(* ===================================================================== *)

(** ** [indexOf] on arrays without repeated elements *)

Module JsFacts.
Section ArrayIndexOf.
Context {A : Type}.
Variable strictEq : A -> A -> bool.
Hypothesis strictEq_true : forall a b, strictEq a b = true <-> a = b.

Lemma strictEq_refl (a : A) : strictEq a a = true.
Proof. now apply strictEq_true. Qed.

Lemma strictEq_false (a b : A) : a <> b -> strictEq a b = false.
Proof.
  intros Hne. destruct (strictEq a b) eqn:E; [|reflexivity].
  apply strictEq_true in E. contradiction.
Qed.

Lemma indexOfFrom_absent (arr : list A) (x : A) (k : Z) :
  ~ In x arr -> Js.indexOfFrom strictEq arr x k = -1.
Proof.
  revert k. induction arr as [|y rest IH]; intros k Hnot; simpl; [reflexivity|].
  rewrite strictEq_false.
  - apply IH. intros Hin. apply Hnot. now right.
  - intros ->. apply Hnot. now left.
Qed.

(** In an array without repeats the scan stops exactly at the element's
    own position. *)
Lemma indexOfFrom_nth_error (arr : list A) :
  NoDup arr ->
  forall (i : nat) (x : A) (k : Z),
    nth_error arr i = Some x ->
    Js.indexOfFrom strictEq arr x k = k + Z.of_nat i.
Proof.
  induction 1 as [|y rest Hnotin Hnodup IH]; intros i x k Hnth.
  - destruct i; discriminate.
  - destruct i as [|i]; simpl in *.
    + injection Hnth as ->. rewrite strictEq_refl. lia.
    + rewrite strictEq_false.
      * rewrite (IH i x (k + 1) Hnth). lia.
      * intros ->. apply Hnotin. eapply nth_error_In; eassumption.
Qed.

Lemma indexOf_nth_error (arr : list A) (i : nat) (x : A) :
  NoDup arr -> nth_error arr i = Some x ->
  Js.indexOf strictEq arr x = Z.of_nat i.
Proof.
  intros Hnodup Hnth. unfold Js.indexOf.
  now rewrite (indexOfFrom_nth_error arr Hnodup i x 0 Hnth).
Qed.
End ArrayIndexOf.

(** No element precedes itself, whatever the array and the equality. *)
Lemma indexOf_ltb_same {A : Type} (eqb : A -> A -> bool) (arr : list A) (x : A) :
  (Js.indexOf eqb arr x <? Js.indexOf eqb arr x) = false.
Proof. apply Z.ltb_irrefl. Qed.
End JsFacts.

(** ** The canonical sequence *)

Module TutorialStepFacts.
Import TutorialStepModel.

Lemma strictEq_true (a b : ValidTutorialStep) : strictEq a b = true <-> a = b.
Proof. split; [destruct a, b; simpl; congruence | intros ->; now destruct b]. Qed.

Lemma step_strictEq_refl (a : ValidTutorialStep) : strictEq a a = true.
Proof. now apply strictEq_true. Qed.

Lemma strictEq_sym (a b : ValidTutorialStep) : strictEq a b = strictEq b a.
Proof. now destruct a, b. Qed.

Lemma strictEq_dec (a b : ValidTutorialStep) :
  strictEq a b = if eq_dec a b then true else false.
Proof.
  destruct (eq_dec a b) as [->|Hne]; [apply step_strictEq_refl|].
  now apply (JsFacts.strictEq_false strictEq strictEq_true).
Qed.

Lemma orderedTutorialSteps_NoDup : NoDup orderedTutorialSteps.
Proof.
  unfold orderedTutorialSteps.
  repeat (constructor; [simpl; intuition discriminate|]). constructor.
Qed.

(** [index] is the position in [orderedTutorialSteps]. *)
Lemma index_position (step : ValidTutorialStep) :
  nth_error orderedTutorialSteps (index step) = Some step.
Proof. now destruct step. Qed.

Lemma orderedTutorialSteps_complete (step : ValidTutorialStep) :
  In step orderedTutorialSteps.
Proof. eapply nth_error_In, index_position. Qed.

(** The array scan of the code finds the spec's index. *)
Lemma indexOf_index (step : ValidTutorialStep) :
  Js.indexOf strictEq orderedTutorialSteps step = Z.of_nat (index step).
Proof.
  apply (JsFacts.indexOf_nth_error strictEq strictEq_true).
  - exact orderedTutorialSteps_NoDup.
  - apply index_position.
Qed.

Lemma index_inj (a b : ValidTutorialStep) : index a = index b -> a = b.
Proof.
  intros E. pose proof (index_position a) as Ha.
  rewrite E, index_position in Ha. congruence.
Qed.
End TutorialStepFacts.

(** ** Lists of keyed elements *)

Module KeyedFacts.
Section Keyed.
Context {A K : Type}.
Variable eqb : K -> K -> bool.
Hypothesis eqb_true : forall a b, eqb a b = true <-> a = b.
Variable keyOf : A -> K.

(** A key that occurs among the elements is found. *)
Lemma find_key (l : list A) (k : K) :
  In k (map keyOf l) ->
  exists a, find (fun a => eqb (keyOf a) k) l = Some a /\ keyOf a = k /\ In a l.
Proof.
  induction l as [|a l IH]; simpl; [contradiction|].
  intros Hin. destruct (eqb (keyOf a) k) eqn:E.
  - exists a. apply eqb_true in E. auto.
  - destruct Hin as [Heq|Hin].
    + apply eqb_true in Heq. congruence.
    + destruct (IH Hin) as (b & Hfind & Hkey & Hb). exists b. auto.
Qed.

(** With distinct keys, at most one element is selected by a flag that
    is raised only on the elements of one key. *)
Lemma at_most_one_flagged (flag : A -> bool) (k : K) (l : list A) :
  NoDup (map keyOf l) ->
  Forall (fun a => flag a = eqb (keyOf a) k) l ->
  (length (filter flag l) <= 1)%nat.
Proof.
  induction l as [|a l IH]; simpl; intros Hnodup Hflag; [lia|].
  inversion Hnodup as [|? ? Hnotin Hnodup']; subst.
  inversion Hflag as [|? ? Ha Hflag']; subst.
  specialize (IH Hnodup' Hflag').
  destruct (flag a); [|lia].
  symmetry in Ha. apply eqb_true in Ha.
  assert (Hnil : filter flag l = []).
  { clear IH Hnodup Hnodup' Hflag.
    induction l as [|b l IHl]; simpl; [reflexivity|].
    inversion Hflag' as [|? ? Hb Hrest]; subst.
    destruct (flag b).
    - exfalso. symmetry in Hb. apply eqb_true in Hb.
      apply Hnotin. simpl. left. congruence.
    - apply IHl; [|assumption]. intros Hin. apply Hnotin. now right. }
  rewrite Hnil. simpl. lia.
Qed.

(** Selecting by key in a list of distinct keys yields that key alone. *)
Lemma filter_key_NoDup (l : list K) (k : K) :
  NoDup l -> In k l -> filter (fun x => eqb x k) l = [k].
Proof.
  induction 1 as [|x l Hnotin Hnodup IH]; simpl; [contradiction|].
  intros [->|Hin].
  - rewrite (proj2 (eqb_true k k) eq_refl). f_equal.
    clear IH Hnodup. induction l as [|y l IHl]; simpl; [reflexivity|].
    destruct (eqb y k) eqn:E.
    + apply eqb_true in E. subst. exfalso. apply Hnotin. now left.
    + apply IHl. intros Hin. apply Hnotin. now right.
  - destruct (eqb x k) eqn:E.
    + apply eqb_true in E. subst. contradiction.
    + now apply IH.
Qed.
End Keyed.
End KeyedFacts.

(** ** The tutorial panel *)

Module TutorialPanelFacts.
Import TutorialStepModel TutorialStepFacts TutorialPanel.

(** *** What [render] hands to the sections *)

Lemma render_sectionIds (this : Component) :
  map Item.sectionId (render this) = orderedTutorialSteps.
Proof. reflexivity. Qed.

Lemma renderedSections_keys (this : Component) :
  map Item.key (renderedSections this) = orderedTutorialSteps.
Proof. reflexivity. Qed.

(** Every section gets the panel's queries, expanded step and click
    handler; only text, identifier and skip button vary. *)
Lemma render_items (this : Component) :
  Forall
    (fun item =>
       item = stepInstructions this (Item.summaryText item)
                (Item.sectionId item) (Item.skipLinkButton item))
    (render this).
Proof. unfold render. repeat constructor. Qed.

Lemma find_rendered_item (this : Component) (id : ValidTutorialStep) :
  exists text skip,
    find (fun item => strictEq (Item.sectionId item) id) (render this)
    = Some (stepInstructions this text id skip).
Proof.
  destruct (KeyedFacts.find_key strictEq strictEq_true Item.sectionId (render this) id)
    as (item & Hfind & Hid & Hin).
  - rewrite render_sectionIds. apply orderedTutorialSteps_complete.
  - pose proof (render_items this) as Hall.
    rewrite Forall_forall in Hall. specialize (Hall item Hin).
    exists (Item.summaryText item), (Item.skipLinkButton item).
    rewrite Hfind, <- Hid. f_equal. exact Hall.
Qed.

(** *** Clicks *)

(** Both handlers of the bubbling click write the same identifier. *)
Lemma click_stepInstructions this text id skip e (parent : Component) :
  Item.click (stepInstructions this text id skip) e parent
  = (Item.preventDefault e, onStepSummaryClick id parent).
Proof. reflexivity. Qed.

Lemma clickSummary_onStepSummaryClick (this : Component) (id : ValidTutorialStep) :
  clickSummary this id = onStepSummaryClick id this.
Proof.
  unfold clickSummary.
  destruct (find_rendered_item this id) as (text & skip & ->).
  now rewrite click_stepInstructions.
Qed.

(** *** Props updates *)

Lemma receiveProps_state (this : Component) (nextProps : ITutorialPanelProps) :
  currentlyOpenSectionId (state (receiveProps this nextProps))
  = if eq_dec (currentTutorialStep (props this)) (currentTutorialStep nextProps)
    then currentlyOpenSectionId (state this)
    else currentTutorialStep nextProps.
Proof.
  unfold receiveProps, componentWillReceiveProps, strictNe. simpl.
  rewrite strictEq_dec.
  now destruct (eq_dec _ _).
Qed.

Lemma receiveProps_same_step (this : Component) (nextProps : ITutorialPanelProps) :
  currentTutorialStep nextProps = currentTutorialStep (props this) ->
  state (receiveProps this nextProps) = state this.
Proof.
  intros E. unfold receiveProps, componentWillReceiveProps, strictNe. simpl.
  now rewrite E, step_strictEq_refl.
Qed.

Lemma run_same_step (nps : list ITutorialPanelProps) :
  forall this : Component,
    Forall (fun np => currentTutorialStep np = currentTutorialStep (props this)) nps ->
    state (run this (map PropsUpdate nps)) = state this.
Proof.
  unfold run.
  induction nps as [|np nps IH]; intros this Hall; simpl; [reflexivity|].
  inversion Hall as [|? ? Hnp Hrest]; subst.
  rewrite IH.
  - now apply receiveProps_same_step.
  - simpl. rewrite Hnp. exact Hrest.
Qed.

(** *** Open flags *)

Lemma rendered_open_flag (this : Component) :
  Forall
    (fun li =>
       Item.open (Item.details li)
       = strictEq (Item.key li) (currentlyOpenSectionId (state this)))
    (renderedSections this).
Proof. unfold renderedSections, render. repeat constructor. Qed.

Lemma at_most_one_open (this : Component) :
  (length (filter (fun li => Item.open (Item.details li)) (renderedSections this))
   <= 1)%nat.
Proof.
  apply (KeyedFacts.at_most_one_flagged strictEq strictEq_true Item.key _
           (currentlyOpenSectionId (state this))).
  - rewrite renderedSections_keys. exact orderedTutorialSteps_NoDup.
  - apply rendered_open_flag.
Qed.

(** *** The skip link and the status icon, section by section *)

Lemma skipLinkShown_eq (this : Component) (id : ValidTutorialStep) :
  skipLinkShown this id
  = match id with
    | PickEditor | OpenPullRequest =>
        strictEq (currentlyOpenSectionId (state this)) id
        && strictEq id (currentTutorialStep (props this))
    | _ => false
    end.
Proof.
  destruct this as [[repo editor current] [expanded]].
  destruct id, expanded, current; reflexivity.
Qed.

Lemma statusIcon_eq (this : Component) (id : ValidTutorialStep) :
  statusIcon this id
  = Some (if isStepComplete this id then Item.GreenCircleCheck
          else if isStepNextTodo this id
               then Item.BlueCircle (Js.indexOf strictEq orderedTutorialSteps id + 1)
               else Item.EmptyCircle (Js.indexOf strictEq orderedTutorialSteps id + 1)).
Proof. destruct id; reflexivity. Qed.

(** *** Completed and next-to-do exclude each other *)

Lemma complete_next_exclusive (this : Component) (id : ValidTutorialStep) :
  isStepComplete this id && isStepNextTodo this id = false.
Proof.
  unfold isStepComplete, isStepNextTodo.
  destruct (strictEq id (currentTutorialStep (props this))) eqn:E.
  - apply strictEq_true in E. rewrite <- E.
    now rewrite JsFacts.indexOf_ltb_same.
  - apply andb_false_r.
Qed.
End TutorialPanelFacts.

Module TutorialPanelProperties.
Import TutorialStepModel TutorialStepFacts TutorialPanel TutorialPanelFacts.

(** C1, expansion state transition.  A freshly constructed panel has the
    supplied current step expanded.  A props update installs the new
    props and resets the expanded step to the new current step exactly
    when that step differs from the previous one; with an unchanged
    current step the expanded step stays as it was.  The reset also
    overrides a step the user expanded by a click just before. *)
Theorem expansion_state_transition :
  (forall p : ITutorialPanelProps,
      currentlyOpenSectionId (state (constructor p)) = currentTutorialStep p)
  /\ (forall (this : Component) (nextProps : ITutorialPanelProps),
         props (receiveProps this nextProps) = nextProps
         /\ currentlyOpenSectionId (state (receiveProps this nextProps))
            = if eq_dec (currentTutorialStep (props this)) (currentTutorialStep nextProps)
              then currentlyOpenSectionId (state this)
              else currentTutorialStep nextProps)
  /\ (forall (this : Component) (manual : ValidTutorialStep)
             (nextProps : ITutorialPanelProps),
         currentlyOpenSectionId
           (state (run this [SummaryClick manual; PropsUpdate nextProps]))
         = if eq_dec (currentTutorialStep (props this)) (currentTutorialStep nextProps)
           then manual
           else currentTutorialStep nextProps).
Proof.
  split; [reflexivity|]. split.
  - intros this nextProps. split; [reflexivity|]. apply receiveProps_state.
  - intros this manual nextProps.
    change (run this [SummaryClick manual; PropsUpdate nextProps])
      with (receiveProps (clickSummary this manual) nextProps).
    rewrite receiveProps_state, clickSummary_onStepSummaryClick.
    reflexivity.
Qed.

(** C2, completion.  [isStepComplete step] is true exactly when the
    position of [step] in the canonical sequence of six steps is strictly
    smaller than the position of the supplied current step; [index] is
    that position. *)
Theorem isStepComplete_iff_index_lt (this : Component) (step : ValidTutorialStep) :
  nth_error orderedTutorialSteps (index step) = Some step
  /\ (isStepComplete this step = true
      <-> (index step < index (currentTutorialStep (props this)))%nat).
Proof.
  split; [apply index_position|].
  unfold isStepComplete. rewrite !indexOf_index, Z.ltb_lt. lia.
Qed.

(** C3, next step to do.  [isStepNextTodo step] holds exactly for the
    supplied current step: among the six steps it selects that one step
    and rejects the other five. *)
Theorem isStepNextTodo_exactly_current (this : Component) :
  (forall step : ValidTutorialStep,
      isStepNextTodo this step = true <-> step = currentTutorialStep (props this))
  /\ filter (isStepNextTodo this) orderedTutorialSteps
     = [currentTutorialStep (props this)]
  /\ length (filter (fun step => negb (isStepNextTodo this step)) orderedTutorialSteps)
     = 5%nat.
Proof.
  assert (Hone : filter (isStepNextTodo this) orderedTutorialSteps
                 = [currentTutorialStep (props this)]).
  { apply (KeyedFacts.filter_key_NoDup strictEq strictEq_true).
    - exact orderedTutorialSteps_NoDup.
    - apply orderedTutorialSteps_complete. }
  split; [intros step; apply strictEq_true|]. split; [exact Hone|].
  pose proof (filter_length (isStepNextTodo this) orderedTutorialSteps) as Hlen.
  rewrite Hone in Hlen. simpl in Hlen. simpl. lia.
Qed.

(** C4, skip link.  The summary of PickEditor shows the skip link exactly
    when PickEditor is the expanded step and the current step; likewise
    for OpenPullRequest; the summaries of the other four steps never show
    it, whatever the expanded and the current step are. *)
Theorem skip_link_visibility (this : Component) :
  (skipLinkShown this PickEditor = true
   <-> currentlyOpenSectionId (state this) = PickEditor
       /\ PickEditor = currentTutorialStep (props this))
  /\ (skipLinkShown this OpenPullRequest = true
      <-> currentlyOpenSectionId (state this) = OpenPullRequest
          /\ OpenPullRequest = currentTutorialStep (props this))
  /\ skipLinkShown this CreateBranch = false
  /\ skipLinkShown this EditFile = false
  /\ skipLinkShown this MakeCommit = false
  /\ skipLinkShown this PushBranch = false.
Proof.
  rewrite !skipLinkShown_eq, !andb_true_iff, !strictEq_true.
  tauto.
Qed.

(** C5, manual expansion.  A click on the summary of any step X leaves
    the props alone and makes X the expanded step, whatever X's status;
    X then stays expanded through every props update that supplies the
    same current step, that is, until another click or a change of the
    current step. *)
Theorem manual_expansion_persists (this : Component) (X : ValidTutorialStep) :
  props (clickSummary this X) = props this
  /\ currentlyOpenSectionId (state (clickSummary this X)) = X
  /\ forall updates : list ITutorialPanelProps,
       Forall (fun np => currentTutorialStep np = currentTutorialStep (props this))
         updates ->
       currentlyOpenSectionId
         (state (run this (SummaryClick X :: map PropsUpdate updates)))
       = X.
Proof.
  rewrite clickSummary_onStepSummaryClick.
  split; [reflexivity|]. split; [reflexivity|].
  intros updates Hsame.
  change (run this (SummaryClick X :: map PropsUpdate updates))
    with (run (clickSummary this X) (map PropsUpdate updates)).
  rewrite clickSummary_onStepSummaryClick, run_same_step; [reflexivity|].
  exact Hsame.
Qed.

(** A completed step (PickEditor while the user is at MakeCommit) is
    expanded by a click and stays expanded while the editor label and
    the repository change under an unchanged current step. *)
Lemma manual_expansion_persists_witness :
  let p label dir :=
    {| repository := {| Dispatcher.path := dir |};
       externalEditorLabel := label;
       currentTutorialStep := MakeCommit |} in
  currentlyOpenSectionId
    (state (run (constructor (p None "/repo"%string))
              (SummaryClick PickEditor
                 :: map PropsUpdate
                      [p (Some "Atom"%string) "/repo"%string;
                       p (Some "Atom"%string) "/elsewhere"%string])))
  = PickEditor.
Proof.
  intros p.
  apply (proj2 (proj2 (manual_expansion_persists
                         (constructor (p None "/repo"%string)) PickEditor))).
  repeat constructor.
Defined.

(** C8, status icon.  The icon of a step is the completed indicator when
    the step is complete; otherwise the highlighted indicator with the
    step's 1-based position when the step is the next to do; otherwise
    the plain indicator with the same 1-based position. *)
Theorem status_icon_selection (this : Component) (step : ValidTutorialStep) :
  statusIcon this step
  = Some (if isStepComplete this step then Item.GreenCircleCheck
          else if isStepNextTodo this step
               then Item.BlueCircle (Z.of_nat (S (index step)))
               else Item.EmptyCircle (Z.of_nat (S (index step)))).
Proof.
  rewrite statusIcon_eq, indexOf_index.
  replace (Z.of_nat (index step) + 1) with (Z.of_nat (S (index step))) by lia.
  reflexivity.
Qed.

(** C9, single open section.  In every state the panel reaches from its
    construction through summary clicks and props updates, at most one
    of the rendered sections is open, and a section is open exactly when
    its identifier is the stored expanded step. *)
Theorem single_open_section (p : ITutorialPanelProps) (evs : list Event) :
  (length (filter (fun li => Item.open (Item.details li))
             (renderedSections (run (constructor p) evs))) <= 1)%nat
  /\ Forall
       (fun li =>
          Item.open (Item.details li) = true
          <-> Item.key li
              = currentlyOpenSectionId (state (run (constructor p) evs)))
       (renderedSections (run (constructor p) evs)).
Proof.
  split; [apply at_most_one_open|].
  eapply Forall_impl; [|apply rendered_open_flag].
  intros li Hflag. cbv beta in Hflag. rewrite Hflag. apply strictEq_true.
Qed.

(** C10, mutual exclusion.  No step is both complete and next to do, so
    each step is exactly one of completed, next to do, or future, and the
    icon does not depend on which of the two tests is made first. *)
Theorem complete_and_next_todo_exclusive (this : Component) (step : ValidTutorialStep) :
  isStepComplete this step && isStepNextTodo this step = false
  /\ ((isStepComplete this step = true /\ isStepNextTodo this step = false)
      \/ (isStepComplete this step = false /\ isStepNextTodo this step = true)
      \/ (isStepComplete this step = false /\ isStepNextTodo this step = false))
  /\ statusIcon this step
     = Some (if isStepNextTodo this step
             then Item.BlueCircle (Z.of_nat (S (index step)))
             else if isStepComplete this step
                  then Item.GreenCircleCheck
                  else Item.EmptyCircle (Z.of_nat (S (index step)))).
Proof.
  pose proof (complete_next_exclusive this step) as Hex.
  rewrite statusIcon_eq, indexOf_index.
  replace (Z.of_nat (index step) + 1) with (Z.of_nat (S (index step))) by lia.
  destruct (isStepComplete this step), (isStepNextTodo this step);
    simpl in Hex; try discriminate; auto 6.
Qed.
End TutorialPanelProperties.

(** ** The usage opt-out form *)

Module UsageOptOutProperties.
Import UsageOptOut.

Section WithWelcomeStep.
Context {WelcomeStep : Type}.
Variable ConfigureGit : WelcomeStep.

(** C6, checkbox contract.  The rendered checkbox is checked exactly when
    the supplied opt-out flag is false.  Its change handler leaves the
    component as it is and hands the dispatcher one [setStatsOptOut] with
    the negation of the new checked value: with recording collaborators
    the log grows by that single call, [false] when the box goes from
    unchecked to checked and [true] when it goes from checked to
    unchecked. *)
Theorem checkbox_contract :
  (forall (World : Type) (this : @Component WelcomeStep World),
      isChecked (value (checkbox (render ConfigureGit this))) = true
      <-> optOut (props this) = false)
  /\ (forall (World : Type) (this : @Component WelcomeStep World)
             (event : FormEvent) (world : World),
         checkboxOnChange (checkbox (render ConfigureGit this)) event this world
         = (this,
            setStatsOptOut (dispatcher (props this))
              (negb (checked (currentTarget event))) world))
  /\ (forall (flag newChecked : bool) (log : Log),
         checkboxOnChange (checkbox (render ConfigureGit (recording flag)))
           {| currentTarget := {| checked := newChecked |} |} (recording flag) log
         = (recording flag, log ++ [SetStatsOptOut (negb newChecked)]))
  /\ (forall log : Log,
         act ConfigureGit Toggle (recording true) log
         = (recording true, log ++ [SetStatsOptOut false]))
  /\ (forall log : Log,
         act ConfigureGit Toggle (recording false) log
         = (recording false, log ++ [SetStatsOptOut true])).
Proof.
  split.
  - intros World this. simpl.
    destruct (optOut (props this)); simpl; intuition congruence.
  - repeat split.
Qed.

(** C7, submit and cancel.  Submitting runs the supplied [done] callback,
    once and without arguments; cancelling runs the supplied [advance]
    callback, once and with the git-configuration step.  Neither changes
    the component, and neither depends on the opt-out flag. *)
Theorem submit_and_cancel :
  (forall (World : Type) (this : @Component WelcomeStep World) (world : World),
      onSubmit (render ConfigureGit this) this world
      = (this, done (props this) world))
  /\ (forall (World : Type) (this : @Component WelcomeStep World) (world : World),
         cancelOnClick (render ConfigureGit this) this world
         = (this, advance (props this) ConfigureGit world))
  /\ (forall (flag : bool) (log : Log),
         act ConfigureGit Submit (recording flag) log
         = (recording flag, log ++ [Done]))
  /\ (forall (flag : bool) (log : Log),
         act ConfigureGit Cancel (recording flag) log
         = (recording flag, log ++ [Advance ConfigureGit])).
Proof. repeat split. Qed.
End WithWelcomeStep.
End UsageOptOutProperties.

(** ** The tutorial panel: clicks, runs of events and step contents *)

Module TutorialPanelRuns.
Import TutorialStepModel TutorialStepFacts TutorialPanel TutorialPanelFacts.
Import TutorialPanelContents.

(** A click never touches the props. *)
Lemma clickSummary_props (this : Component) (id : ValidTutorialStep) :
  props (clickSummary this id) = props this.
Proof. now rewrite clickSummary_onStepSummaryClick. Qed.

(** The props after a run are those of the run without its clicks. *)
Lemma run_props_without_clicks (evs : list Event) :
  forall a b : Component,
    props a = props b ->
    props (run a evs) = props (run b (filter isPropsUpdate evs)).
Proof.
  unfold run.
  induction evs as [|ev evs IH]; intros a b Hab; simpl; [exact Hab|].
  destruct ev as [id|nextProps]; simpl.
  - apply IH. now rewrite clickSummary_props.
  - apply IH. reflexivity.
Qed.

(** The status icon is a function of the props alone. *)
Lemma statusIcon_props (a b : Component) (id : ValidTutorialStep) :
  props a = props b -> statusIcon a id = statusIcon b id.
Proof.
  intros Hab. rewrite !statusIcon_eq.
  unfold isStepComplete, isStepNextTodo. now rewrite Hab.
Qed.

(** Props updates keep "the expanded step is the current step". *)
Lemma updates_follow_current_step (ups : list ITutorialPanelProps) :
  forall this : Component,
    currentlyOpenSectionId (state this) = currentTutorialStep (props this) ->
    currentlyOpenSectionId (state (run this (map PropsUpdate ups)))
    = currentTutorialStep (props (run this (map PropsUpdate ups))).
Proof.
  unfold run.
  induction ups as [|np ups IH]; intros this Hinv; simpl; [exact Hinv|].
  apply IH. rewrite receiveProps_state. simpl.
  destruct (eq_dec _ _) as [E|_]; [|reflexivity].
  now rewrite Hinv.
Qed.

(** The last click wins, so a repeated click changes nothing more; and a
    click on the section that is already open leaves the panel exactly as it
    is: the handlers never collapse a section. *)
Theorem clicks_last_wins (this : Component) (X Y : ValidTutorialStep) :
  clickSummary (clickSummary this X) Y = clickSummary this Y
  /\ clickSummary this (currentlyOpenSectionId (state this)) = this.
Proof.
  rewrite !clickSummary_onStepSummaryClick.
  destruct this as [p [expanded]]. split; reflexivity.
Qed.

(** As long as the user does not click, the expanded step is the current
    step: after construction and any number of props updates the panel
    shows the step the tutorial is at. *)
Theorem expanded_follows_current_without_clicks
    (p : ITutorialPanelProps) (ups : list ITutorialPanelProps) :
  currentlyOpenSectionId (state (run (constructor p) (map PropsUpdate ups)))
  = currentTutorialStep (props (run (constructor p) (map PropsUpdate ups))).
Proof. apply updates_follow_current_step. reflexivity. Qed.

(** Clicks are invisible to the step status: after any run of events the
    props, and with them every step's status icon, are what the props
    updates of the run alone would have produced. *)
Theorem clicks_do_not_change_status
    (this : Component) (evs : list Event) (step : ValidTutorialStep) :
  props (run this evs) = props (run this (filter isPropsUpdate evs))
  /\ statusIcon (run this evs) step
     = statusIcon (run this (filter isPropsUpdate evs)) step.
Proof.
  pose proof (run_props_without_clicks evs this this eq_refl) as Hprops.
  split; [exact Hprops|]. now apply statusIcon_props.
Qed.

(** Completion is transitive along the tutorial: a step that is complete
    while [this] is at its current step is still complete in any panel for
    which that current step is itself complete. *)
Theorem completion_is_transitive (this later : Component) (step : ValidTutorialStep) :
  isStepComplete this step = true ->
  isStepComplete later (currentTutorialStep (props this)) = true ->
  isStepComplete later step = true.
Proof.
  unfold isStepComplete. rewrite !Z.ltb_lt. lia.
Qed.

Lemma completion_is_transitive_witness :
  isStepComplete
    {| props := {| repository := {| Dispatcher.path := "/repo" |};
                   externalEditorLabel := None;
                   currentTutorialStep := PushBranch |};
       state := {| currentlyOpenSectionId := CreateBranch |} |}
    PickEditor = true.
Proof.
  apply (completion_is_transitive
           {| props := {| repository := {| Dispatcher.path := "/repo" |};
                          externalEditorLabel := None;
                          currentTutorialStep := EditFile |};
              state := {| currentlyOpenSectionId := EditFile |} |});
    reflexivity.
Defined.

(** Progress is linear: of two panels at different current steps exactly
    one shows the other's current step as complete, and panels at the same
    step show neither. *)
Theorem completion_orders_steps (a b : Component) :
  isStepComplete a (currentTutorialStep (props b))
  && isStepComplete b (currentTutorialStep (props a)) = false
  /\ (isStepComplete a (currentTutorialStep (props b))
      || isStepComplete b (currentTutorialStep (props a))
      = strictNe (currentTutorialStep (props a)) (currentTutorialStep (props b))).
Proof.
  unfold isStepComplete, strictNe. rewrite strictEq_dec, !indexOf_index.
  destruct (eq_dec _ _) as [E|Hne].
  - rewrite E, Z.ltb_irrefl. split; reflexivity.
  - assert (Hidx : index (currentTutorialStep (props a))
                   <> index (currentTutorialStep (props b)))
      by (intros Heq; apply Hne, index_inj, Heq).
    destruct (Z.ltb_spec (Z.of_nat (index (currentTutorialStep (props b))))
                (Z.of_nat (index (currentTutorialStep (props a)))));
      destruct (Z.ltb_spec (Z.of_nat (index (currentTutorialStep (props a))))
                  (Z.of_nat (index (currentTutorialStep (props b)))));
      simpl; split; try reflexivity; lia.
Qed.

(** The row of status icons, top to bottom: with the current step at
    position [k] (from 0) there are [k] completed indicators, then the
    highlighted indicator numbered [k + 1], then plain indicators numbered
    [k + 2] to 6. *)
Theorem status_icon_row (this : Component) :
  map (statusIcon this) orderedTutorialSteps
  = repeat (Some Item.GreenCircleCheck) (index (currentTutorialStep (props this)))
    ++ Some (Item.BlueCircle (Z.of_nat (index (currentTutorialStep (props this)) + 1)))
    :: map (fun n => Some (Item.EmptyCircle (Z.of_nat n)))
         (seq (index (currentTutorialStep (props this)) + 2)
            (5 - index (currentTutorialStep (props this)))).
Proof.
  destruct this as [[repo label current] expanded].
  destruct current; reflexivity.
Qed.
End TutorialPanelRuns.

(** ** The skip link and the step contents *)

Module TutorialPanelAffordances.
Import TutorialStepModel TutorialStepFacts TutorialPanel TutorialPanelFacts.
Import TutorialPanelContents.

(** For any props a section may be given: the summary ends in a skip link
    only when a skip button was passed, and then it is that very button,
    the section is the expanded one and it is the next step to do. *)
Theorem summary_skip_link_is_the_prop
    (Parent : Type) (this : Item.ITutorialListItemProps Parent)
    (button : Item.SkipLinkButton) :
  Item.tail (Item.renderSummary this) = Item.SkipLink button ->
  Item.skipLinkButton this = Some button
  /\ Item.currentlyOpenSectionId this = Item.sectionId this
  /\ Item.isNextStepTodo this (Item.sectionId this) = true.
Proof.
  unfold Item.renderSummary, Item.shouldShowSkipLink. simpl.
  destruct (Item.skipLinkButton this) as [given|]; simpl; [|discriminate].
  destruct (strictEq _ _) eqn:Eopen; simpl; [|discriminate].
  destruct (Item.isNextStepTodo this _); [|discriminate].
  intros H. injection H as ->. apply strictEq_true in Eopen. auto.
Qed.

Lemma summary_skip_link_is_the_prop_witness :
  Item.skipLinkButton
    (stepInstructions
       (constructor {| repository := {| Dispatcher.path := "/repo" |};
                       externalEditorLabel := None;
                       currentTutorialStep := PickEditor |})
       "Install a text editor" PickEditor
       (Some {| Item.onClick := [] |}))
  = Some {| Item.onClick := [] |}.
Proof.
  apply (summary_skip_link_is_the_prop Component
           (stepInstructions
              (constructor {| repository := {| Dispatcher.path := "/repo" |};
                              externalEditorLabel := None;
                              currentTutorialStep := PickEditor |})
              "Install a text editor" PickEditor
              (Some {| Item.onClick := [] |}))
           {| Item.onClick := [] |}).
  reflexivity.
Defined.

(** A section that shows the skip link is the expanded one, is not
    complete, and carries the highlighted indicator with its number. *)
Theorem skip_link_only_on_highlighted_open_step
    (this : Component) (id : ValidTutorialStep) :
  skipLinkShown this id = true ->
  currentlyOpenSectionId (state this) = id
  /\ isStepComplete this id = false
  /\ statusIcon this id = Some (Item.BlueCircle (Z.of_nat (S (index id)))).
Proof.
  rewrite skipLinkShown_eq. intros Hshown.
  assert (Hboth : strictEq (currentlyOpenSectionId (state this)) id
                  && strictEq id (currentTutorialStep (props this)) = true)
    by (destruct id; (exact Hshown || discriminate)).
  apply andb_true_iff in Hboth. destruct Hboth as [Hopen Hcur].
  pose proof (complete_next_exclusive this id) as Hex.
  unfold isStepNextTodo in Hex. rewrite Hcur, andb_true_r in Hex.
  apply strictEq_true in Hopen.
  split; [exact Hopen|]. split; [exact Hex|].
  rewrite statusIcon_eq, Hex, indexOf_index. unfold isStepNextTodo. rewrite Hcur.
  do 2 f_equal. lia.
Qed.

Lemma skip_link_only_on_highlighted_open_step_witness :
  statusIcon
    (constructor {| repository := {| Dispatcher.path := "/repo" |};
                    externalEditorLabel := None;
                    currentTutorialStep := OpenPullRequest |})
    OpenPullRequest
  = Some (Item.BlueCircle 6).
Proof.
  apply (skip_link_only_on_highlighted_open_step
           (constructor {| repository := {| Dispatcher.path := "/repo" |};
                           externalEditorLabel := None;
                           currentTutorialStep := OpenPullRequest |})
           OpenPullRequest).
  reflexivity.
Defined.

(** The skip link, where it is rendered, skips its own step for the
    panel's repository: the link of the editor step issues one
    [skipPickEditorTutorialStep], the link of the pull-request step one
    [skipCreatePullRequestTutorialStep], and no other section has one. *)
Theorem skip_link_skips_its_own_step
    (this : Component) (id : ValidTutorialStep) (button : Item.SkipLinkButton) :
  summaryTail this id = Some (Item.SkipLink button) ->
  (id = PickEditor
   /\ Item.onClick button
      = [Dispatcher.skipPickEditorTutorialStep (repository (props this))])
  \/ (id = OpenPullRequest
      /\ Item.onClick button
         = [Dispatcher.skipCreatePullRequestTutorialStep (repository (props this))]).
Proof.
  unfold summaryTail.
  destruct id; simpl; unfold Item.shouldShowSkipLink; simpl;
    repeat match goal with
           | |- context [if ?c then _ else _] => destruct c; simpl
           end;
    intros H; inversion H; subst; auto.
Qed.

Lemma skip_link_skips_its_own_step_witness :
  (OpenPullRequest = PickEditor
   /\ skipCreatePR
        (constructor {| repository := {| Dispatcher.path := "/repo" |};
                        externalEditorLabel := None;
                        currentTutorialStep := OpenPullRequest |})
      = [Dispatcher.skipPickEditorTutorialStep {| Dispatcher.path := "/repo" |}])
  \/ (OpenPullRequest = OpenPullRequest
      /\ skipCreatePR
           (constructor {| repository := {| Dispatcher.path := "/repo" |};
                           externalEditorLabel := None;
                           currentTutorialStep := OpenPullRequest |})
         = [Dispatcher.skipCreatePullRequestTutorialStep
              {| Dispatcher.path := "/repo" |}]).
Proof.
  apply (skip_link_skips_its_own_step
           (constructor {| repository := {| Dispatcher.path := "/repo" |};
                           externalEditorLabel := None;
                           currentTutorialStep := OpenPullRequest |})
           OpenPullRequest
           {| Item.onClick :=
                skipCreatePR
                  (constructor {| repository := {| Dispatcher.path := "/repo" |};
                                  externalEditorLabel := None;
                                  currentTutorialStep := OpenPullRequest |}) |}).
  reflexivity.
Defined.

Section WithEnvironment.
Variable join : string -> string -> string.
Variable DARWIN : bool.

(** The "I have an editor" link of the editor step is rendered exactly
    while the editor step is the current one, and it issues the same single
    [skipPickEditorTutorialStep] for the panel's repository as the skip
    link of that step; so whenever the skip link shows, this link shows. *)
Theorem have_editor_link (this : Component) :
  actionControl join DARWIN this PickEditor
  = (if eq_dec (currentTutorialStep (props this)) PickEditor
     then Some (LinkButton
                  [skipCall (Dispatcher.skipPickEditorTutorialStep
                               (repository (props this)))]
                  "I have an editor")
     else None)
  /\ (if skipLinkShown this PickEditor
      then Item.isDefined (actionControl join DARWIN this PickEditor)
      else true) = true.
Proof.
  assert (Hfirst : isStepComplete this PickEditor
                   = negb (strictEq (currentTutorialStep (props this)) PickEditor)).
  { unfold isStepComplete. rewrite !indexOf_index.
    now destruct (currentTutorialStep (props this)). }
  rewrite skipLinkShown_eq. unfold actionControl.
  rewrite Hfirst, negb_involutive, strictEq_dec.
  rewrite (strictEq_sym PickEditor).
  rewrite (strictEq_dec (currentTutorialStep (props this)) PickEditor).
  destruct (eq_dec _ _); simpl.
  - split; [reflexivity|].
    now destruct (strictEq (currentlyOpenSectionId (state this)) PickEditor).
  - split; [reflexivity|]. now rewrite andb_false_r.
Qed.

(** The open-editor button of the edit step is rendered exactly for an
    editor label that is defined and not empty; when it is rendered it is
    never disabled, and it opens [README.md] joined to the repository
    path. *)
Theorem open_editor_button (this : Component) :
  actionControl join DARWIN this EditFile
  = (if truthy (externalEditorLabel (props this))
     then Some (Button
                  [openInExternalEditor
                     (join (Dispatcher.path (repository (props this))) "README.md")]
                  false
                  (if DARWIN then "Open Editor" else "Open editor"))
     else None)
  /\ (truthy (externalEditorLabel (props this)) = false
      <-> externalEditorLabel (props this) = None
          \/ externalEditorLabel (props this) = Some ""%string).
Proof.
  unfold actionControl, openTutorialFileInEditor.
  destruct (externalEditorLabel (props this)) as [[|c label]|]; simpl.
  - split; [reflexivity|]. intuition.
  - split; [reflexivity|]. intuition discriminate.
  - split; [reflexivity|]. intuition.
Qed.
End WithEnvironment.
End TutorialPanelAffordances.

(** ** The usage opt-out form over several actions *)

Module UsageOptOutSessionProperties.
Import UsageOptOut UsageOptOutSession.

Section WithWelcomeStep.
Context {WelcomeStep : Type}.
Variable ConfigureGit : WelcomeStep.



(** A toggle always asks the dispatcher for the opposite of the flag the
    form was rendered with.  Over a store that keeps what the dispatcher
    is given, one toggle inverts the stored flag, two toggles restore it,
    and submitting or cancelling leaves it alone. *)
Theorem toggle_inverts_the_flag :
  (forall (World : Type) (this : @Component WelcomeStep World) (world : World),
      act ConfigureGit Toggle this world
      = (this,
         setStatsOptOut (dispatcher (props this)) (negb (optOut (props this))) world))
  /\ (forall stored : bool,
         actOnStore ConfigureGit Toggle stored = negb stored
         /\ actOnStore ConfigureGit Toggle (actOnStore ConfigureGit Toggle stored)
            = stored
         /\ actOnStore ConfigureGit Submit stored = stored
         /\ actOnStore ConfigureGit Cancel stored = stored).
Proof.
  split.
  - intros World this world. unfold act, render, onChange. simpl.
    now destruct (optOut (props this)).
  - intros stored. now destruct stored.
Qed.
End WithWelcomeStep.
End UsageOptOutSessionProperties.
